(** * util/road_graph.py: Edge, VertexOutgoingEdges and RoadGraph

    Shallow embedding of the Python module.  Python objects live in a
    store (a heap of [obj]ects indexed by locations); a Python reference is
    a [pyval].  Methods are computations in a state-and-exception monad
    [M]: a raised exception keeps the store as it was when it was raised. *)

From stdpp Require Import base gmap list strings.

Definition loc := positive.

(** Vertex identifiers: opaque hashable values, here integers. *)
Definition vertex := Z.

(** Python exceptions that the module can raise. *)
Inductive exn :=
  | KeyError
  | ValueError
  | TypeError
  | AttributeError.

(** A Python reference held in a dict or attribute: [None] or an object. *)
Inductive pyval :=
  | PyNone
  | PyRef (l : loc).

Global Instance pyval_eq_dec : EqDecision pyval.
Proof. solve_decision. Defined.

(** [class Edge]: the attribute [length] is set by the constructor;
    [time] and [weight] may or may not be present ([None] = no such
    attribute). *)
Record Edge := mkEdge {
  length : Z;
  time : option Z;
  weight : option Z
}.

(** What a caller's weight function is given: Python's [None], an Edge
    object (its attributes), or an object of another class (opaque). *)
Inductive arg_view :=
  | AVNone
  | AVEdge (e : Edge)
  | AVOther.

(** The value of [_edge_weight_fun]: one of the two lambdas written in
    [set_edge_weight_function] (lines 99 and 101), or a caller's function,
    called on whatever object it is applied to. *)
Inductive weight_fun :=
  | WLength
  | WTime
  | WCustom (f : arg_view -> exn + Z).

(** [class VertexOutgoingEdges]: attributes [road_graph] and [edges]. *)
Record VertexOutgoingEdges := mkVOE {
  road_graph : pyval;
  edges : gmap vertex pyval
}.

(** [class RoadGraph]: attributes [graph] and [_edge_weight_fun] (absent
    until [set_edge_weight_function] has run once). *)
Record RoadGraph := mkRG {
  graph : gmap vertex pyval;
  _edge_weight_fun : option weight_fun
}.

Inductive obj :=
  | OEdge (e : Edge)
  | OVOE (v : VertexOutgoingEdges)
  | ORG (g : RoadGraph).

Abbreviation store := (gmap loc obj).

(** ** The state-and-exception monad *)

Definition M (A : Type) : Type := store -> (exn + A) * store.

Global Instance M_ret : MRet M := fun A a h => (inr a, h).
Global Instance M_bind : MBind M := fun A B k m h =>
  match m h with
  | (inl x, h') => (inl x, h')
  | (inr a, h') => k a h'
  end.

Definition raise {A} (x : exn) : M A := fun h => (inl x, h).

Definition alloc (o : obj) : M loc := fun h =>
  let l := fresh (dom h) in (inr l, <[l := o]> h).

Definition store_write (l : loc) (o : obj) : M () := fun h =>
  (inr (), <[l := o]> h).

(** [for x in xs: body(x)] *)
Fixpoint for_each {A} (xs : list A) (body : A -> M ()) : M () :=
  match xs with
  | [] => mret ()
  | x :: xs' => body x ;; for_each xs' body
  end.

(** [d[key]] on a Python dict. *)
Definition dict_getitem {V} (d : gmap vertex V) (key : vertex) : M V :=
  match d !! key with
  | Some v => mret v
  | None => raise KeyError
  end.

(** The keys of a dict, in iteration order. *)
Definition dict_keys {V} (d : gmap vertex V) : list vertex :=
  (map_to_list d).*1.

(** Attribute access on references: [x.attr] on an object of the wrong
    class (or on [None]) raises [AttributeError]. *)
Definition load_edge (x : pyval) : M (option Edge) := fun h =>
  match x with
  | PyNone => (inr None, h)
  | PyRef l =>
      match h !! l with
      | Some (OEdge e) => (inr (Some e), h)
      | _ => (inl AttributeError, h)
      end
  end.

Definition load_voe (x : pyval) : M (loc * VertexOutgoingEdges) := fun h =>
  match x with
  | PyRef l =>
      match h !! l with
      | Some (OVOE v) => (inr (l, v), h)
      | _ => (inl AttributeError, h)
      end
  | PyNone => (inl AttributeError, h)
  end.

Definition load_rg (x : pyval) : M (loc * RoadGraph) := fun h =>
  match x with
  | PyRef l =>
      match h !! l with
      | Some (ORG g) => (inr (l, g), h)
      | _ => (inl AttributeError, h)
      end
  | PyNone => (inl AttributeError, h)
  end.

(** [x.weight = w] on an Edge object. *)
Definition store_edge_weight (x : pyval) (w : Z) : M () := fun h =>
  match x with
  | PyRef l =>
      match h !! l with
      | Some (OEdge e) =>
          (inr (), <[l := OEdge (mkEdge (length e) (time e) (Some w))]> h)
      | _ => (inl AttributeError, h)
      end
  | PyNone => (inl AttributeError, h)
  end.

(** ** Edge weight functions *)

(** Calling the value of [_edge_weight_fun] on [e]:
    [lambda e: e.weight if hasattr(e, 'weight') else e.length],
    [lambda e: e.weight if hasattr(e, 'weight') else e.time], or the
    caller's function, called on [e] whatever its class. *)
Definition apply_weight_fun (f : weight_fun) (e : pyval) : M Z :=
  match f with
  | WLength =>
      oe ← load_edge e;
      match oe with
      | Some ed =>
          match weight ed with
          | Some w => mret w
          | None => mret (length ed)
          end
      | None => raise AttributeError
      end
  | WTime =>
      oe ← load_edge e;
      match oe with
      | Some ed =>
          match weight ed with
          | Some w => mret w
          | None =>
              match time ed with
              | Some t => mret t
              | None => raise AttributeError
              end
          end
      | None => raise AttributeError
      end
  | WCustom g => fun h =>
      let arg := match e with
                 | PyNone => AVNone
                 | PyRef l => match h !! l with
                              | Some (OEdge ed) => AVEdge ed
                              | _ => AVOther
                              end
                 end in
      (g arg, h)
  end.

(** ** class VertexOutgoingEdges *)

(** [VertexOutgoingEdges(road_graph)] *)
Definition VertexOutgoingEdges_new (rg : pyval) : M pyval :=
  l ← alloc (OVOE (mkVOE rg ∅));
  mret (PyRef l).

(** [__setitem__(self, key, val)] (lines 30-33).  [Edge()] misses the
    constructor's argument [length]: it raises [TypeError]. *)
Definition voe_setitem (self : pyval) (key : vertex) (val : Z) : M () :=
  '(_, v) ← load_voe self;
  cur ← dict_getitem (edges v) key;
  match cur with
  | PyNone => raise TypeError
  | PyRef _ =>
      '(_, v') ← load_voe self;
      e ← dict_getitem (edges v') key;
      store_edge_weight e val
  end.

(** [__getitem__(self, key)] (lines 35-37). *)
Definition voe_getitem (self : pyval) (key : vertex) : M Z :=
  '(_, v) ← load_voe self;
  e ← dict_getitem (edges v) key;
  '(_, g) ← load_rg (road_graph v);
  match _edge_weight_fun g with
  | Some f => apply_weight_fun f e
  | None => raise AttributeError
  end.

(** [__delitem__(self, key)] *)
Definition voe_delitem (self : pyval) (key : vertex) : M () :=
  '(l, v) ← load_voe self;
  match edges v !! key with
  | Some _ => store_write l (OVOE (mkVOE (road_graph v) (delete key (edges v))))
  | None => raise KeyError
  end.

(** [get_edge(self, key)] (lines 55-56). *)
Definition voe_get_edge (self : pyval) (key : vertex) : M pyval :=
  '(_, v) ← load_voe self;
  dict_getitem (edges v) key.

(** [set_edge(self, key, value)] (lines 58-59). *)
Definition voe_set_edge (self : pyval) (key : vertex) (value : pyval) : M () :=
  '(l, v) ← load_voe self;
  store_write l (OVOE (mkVOE (road_graph v) (<[key := value]> (edges v)))).

(** ** class RoadGraph *)

(** [__setitem__], [__getitem__] and [__contains__] (the latter inherited
    from [MutableMapping]: [self[key]], [False] on [KeyError]). *)
Definition rg_setitem (self : pyval) (key : vertex) (val : pyval) : M () :=
  '(l, g) ← load_rg self;
  store_write l (ORG (mkRG (<[key := val]> (graph g)) (_edge_weight_fun g))).

Definition rg_getitem (self : pyval) (key : vertex) : M pyval :=
  '(_, g) ← load_rg self;
  dict_getitem (graph g) key.

Definition rg_contains (self : pyval) (key : vertex) : M bool := fun h =>
  match rg_getitem self key h with
  | (inl KeyError, h') => (inr false, h')
  | (inl x, h') => (inl x, h')
  | (inr _, h') => (inr true, h')
  end.

(** The argument [fun] of [set_edge_weight_function]: [None], a string, a
    callable, or any other (non-callable) object, here an integer. *)
Inductive pyarg :=
  | ArgNone
  | ArgStr (s : string)
  | ArgCallable (f : arg_view -> exn + Z)
  | ArgInt (z : Z).

Definition is_none (a : pyarg) : bool :=
  match a with ArgNone => true | _ => false end.

(** [a == s] for a string [s]. *)
Definition eq_str (a : pyarg) (s : string) : bool :=
  match a with ArgStr s' => bool_decide (s' = s) | _ => false end.

Definition callable (a : pyarg) : bool :=
  match a with ArgCallable _ => true | _ => false end.

Definition set_weight_fun_attr (self : pyval) (f : weight_fun) : M () :=
  '(l, g) ← load_rg self;
  store_write l (ORG (mkRG (graph g) (Some f))).

(** [set_edge_weight_function(self, fun=None)] (lines 91-106). *)
Definition set_edge_weight_function (self : pyval) (fn : pyarg) : M () :=
  if is_none fn || eq_str fn "length" then set_weight_fun_attr self WLength
  else if eq_str fn "time" then set_weight_fun_attr self WTime
  else match fn with
       | ArgCallable f => set_weight_fun_attr self (WCustom f)
       | _ => raise ValueError
       end.

(** [get_edge_weight_function(self)] *)
Definition get_edge_weight_function (self : pyval) : M weight_fun :=
  '(_, g) ← load_rg self;
  match _edge_weight_fun g with
  | Some f => mret f
  | None => raise AttributeError
  end.

(** [RoadGraph()] (lines 66-70). *)
Definition RoadGraph_new : M pyval :=
  l ← alloc (ORG (mkRG ∅ None));
  set_edge_weight_function (PyRef l) ArgNone ;;
  mret (PyRef l).

(** [reverse(self)] (lines 115-126).  Lines 123-124: *)
Definition reverse_ensure (reverse_graph : pyval) (to_edge : vertex) : M () :=
  present ← rg_contains reverse_graph to_edge;
  if (present : bool) then mret ()
  else o ← VertexOutgoingEdges_new reverse_graph;
       rg_setitem reverse_graph to_edge o.

(** Line 125: [reverse_graph[to_edge].set_edge(from_edge,
    self.graph[from_edge].get_edge(to_edge))]. *)
Definition reverse_link (self reverse_graph : pyval) (from_edge to_edge : vertex)
    : M () :=
  target ← rg_getitem reverse_graph to_edge;
  '(_, g) ← load_rg self;
  src ← dict_getitem (graph g) from_edge;
  e ← voe_get_edge src to_edge;
  voe_set_edge target from_edge e.

Definition reverse_inner (self reverse_graph : pyval) (from_edge to_edge : vertex)
    : M () :=
  reverse_ensure reverse_graph to_edge ;;
  reverse_link self reverse_graph from_edge to_edge.

(** [for x in obj]: iterating a VertexOutgoingEdges or a RoadGraph
    ([__iter__], lines 42-43 and 81-82) yields the keys of its dict; an
    Edge object or [None] is not iterable. *)
Definition iter_keys (x : pyval) : M (list vertex) := fun h =>
  match x with
  | PyRef l =>
      match h !! l with
      | Some (OVOE v) => (inr (dict_keys (edges v)), h)
      | Some (ORG g) => (inr (dict_keys (graph g)), h)
      | _ => (inl TypeError, h)
      end
  | PyNone => (inl TypeError, h)
  end.

(** Lines 121-125: [for to_edge in self.graph[from_edge]: ...]. *)
Definition reverse_outer (self reverse_graph : pyval) (from_edge : vertex) : M () :=
  '(_, g) ← load_rg self;
  out ← dict_getitem (graph g) from_edge;
  ks ← iter_keys out;
  for_each ks (reverse_inner self reverse_graph from_edge).

Definition reverse (self : pyval) : M pyval :=
  reverse_graph ← RoadGraph_new;
  '(_, g) ← load_rg self;
  for_each (dict_keys (graph g)) (reverse_outer self reverse_graph) ;;
  mret reverse_graph.

(** ** Remaining methods *)

(** [Edge(length)] (lines 10-15): [time] and [weight] are not set. *)
Definition Edge_new (len : Z) : M pyval :=
  l ← alloc (OEdge (mkEdge len None None));
  mret (PyRef l).

(** [VertexOutgoingEdges.__len__] (lines 45-46). *)
Definition voe_len (self : pyval) : M nat :=
  '(_, v) ← load_voe self;
  mret (size (edges v)).

(** [RoadGraph.__delitem__] (lines 78-79). *)
Definition rg_delitem (self : pyval) (key : vertex) : M () :=
  '(l, g) ← load_rg self;
  match graph g !! key with
  | Some _ => store_write l (ORG (mkRG (delete key (graph g)) (_edge_weight_fun g)))
  | None => raise KeyError
  end.

(** ** Views of a graph *)

(** [arc h g s d e]: in store [h], the graph [g] has the arc [s -> d]
    stored as the reference [e] ([g[s].get_edge(d) is e]). *)
Definition arc (h : store) (g : pyval) (s d : vertex) (e : pyval) : Prop :=
  exists lg rg lv v,
    g = PyRef lg /\ h !! lg = Some (ORG rg) /\
    graph rg !! s = Some (PyRef lv) /\ h !! lv = Some (OVOE v) /\
    edges v !! d = Some e.

(** [x] refers to a VertexOutgoingEdges object. *)
Definition is_voe (h : store) (x : pyval) : bool :=
  match x with
  | PyRef l => match h !! l with Some (OVOE _) => true | _ => false end
  | PyNone => false
  end.

(** A road graph: a RoadGraph object whose values are VertexOutgoingEdges. *)
Definition road_graph_wf (h : store) (g : pyval) : Prop :=
  exists lg rg,
    g = PyRef lg /\ h !! lg = Some (ORG rg) /\
    map_Forall (fun _ x => is_voe h x = true) (graph rg).

(** The pairs [(s, d)] of the dict of [rs] visited by the outer loop of
    [reverse] over the sources [ss]. *)
Definition visited (h0 : store) (rs : RoadGraph) (ss : list vertex) (s d : vertex)
    : Prop :=
  s ∈ ss /\ exists lv v, graph rs !! s = Some (PyRef lv) /\
    h0 !! lv = Some (OVOE v) /\ d ∈ dict_keys (edges v).

(** Loop invariant of [reverse], from the initial store [h0] where [self]
    is at [ls], to the current store [h] where [reverse_graph] is at [lr]
    with dict [m]: objects of [h0] are untouched, [reverse_graph] keeps the
    default weight function, each of its values is a distinct new
    VertexOutgoingEdges wired to it, and its arcs are the reversed arcs of
    [self] whose pair [(s, d)] satisfies [P] (the pairs visited so far). *)
Definition rev_inv (h0 : store) (ls lr : loc) (P : vertex -> vertex -> Prop)
    (m : gmap vertex pyval) (h : store) : Prop :=
  (forall l o, h0 !! l = Some o -> h !! l = Some o) /\
  h !! lr = Some (ORG (mkRG m (Some WLength))) /\
  (forall d x, m !! d = Some x ->
     exists l v, x = PyRef l /\ h0 !! l = None /\ h !! l = Some (OVOE v) /\
                 road_graph v = PyRef lr) /\
  (forall d1 d2 l, m !! d1 = Some (PyRef l) -> m !! d2 = Some (PyRef l) -> d1 = d2) /\
  (forall d s e, arc h (PyRef lr) d s e <-> P s d /\ arc h0 (PyRef ls) s d e).

(** Second invariant of [reverse]: the keys of the dict [m] of
    [reverse_graph] (at [lr]) are the vertices with an arc out of them in
    the reversed graph. *)
Definition rev_keys_inv (h : store) (lr : loc) (m : gmap vertex pyval) : Prop :=
  forall d, is_Some (m !! d) <-> exists s e, arc h (PyRef lr) d s e.

(** Example of the spec: A -> {B: Edge(5)}, B -> {C: Edge(3)}. *)
Definition ex_store : store :=
  <[1%positive := ORG (mkRG (<[1%Z := PyRef 2%positive]> (<[2%Z := PyRef 3%positive]> ∅)) (Some WTime))]>
  (<[2%positive := OVOE (mkVOE (PyRef 1%positive) (<[2%Z := PyRef 4%positive]> ∅))]>
  (<[3%positive := OVOE (mkVOE (PyRef 1%positive) (<[3%Z := PyRef 5%positive]> ∅))]>
  (<[4%positive := OEdge (mkEdge 5 None None)]>
  (<[5%positive := OEdge (mkEdge 3 (Some 7%Z) None)]> ∅)))).

(** ** Proof automation *)

Ltac unfold_M :=
  unfold mbind, M_bind, mret, M_ret, raise, store_write, alloc in *.

(** Run a computation of the monad on a store whose relevant cells are
    known from the hypotheses. *)
Ltac run :=
  repeat first
    [ progress unfold_M
    | progress cbn
    | match goal with
      | H : ?h !! ?l = _ |- context [?h !! ?l] => rewrite H
      | H : ?a = _ |- context [match ?a with _ => _ end] => rewrite H
      end ].

(** ** VertexOutgoingEdges *)

Section VOE_methods.
Context (h : store) (lv : loc) (v : VertexOutgoingEdges).
Hypothesis Hv : h !! lv = Some (OVOE v).

(** Claim C3: assigning a bare weight to a destination that has no entry
    ([vo[key] = val]) raises [KeyError] and leaves the whole store, hence
    the destination-to-Edge mapping, unchanged: no entry is created. *)
Lemma setitem_absent_key_error (key : vertex) (val : Z) :
  edges v !! key = None -> voe_setitem (PyRef lv) key val h = (inl KeyError, h).
Proof. intros Habs. unfold voe_setitem, load_voe, dict_getitem. run. reflexivity. Qed.

(** Claim C9: [vo[key] = val] on a destination holding an Edge object [l]
    only sets the attribute [weight] of that object: the store changes at
    [l] alone, where the same object keeps its [length] and [time]; the
    VertexOutgoingEdges object (its entries and its [road_graph]) is
    untouched. *)
Lemma setitem_existing_sets_weight (key : vertex) (val : Z) (l : loc) (ed : Edge) :
  edges v !! key = Some (PyRef l) -> h !! l = Some (OEdge ed) ->
  let h' := <[l := OEdge (mkEdge (length ed) (time ed) (Some val))]> h in
  voe_setitem (PyRef lv) key val h = (inr (), h') /\
  h' !! lv = Some (OVOE v) /\
  (forall l', l' <> l -> h' !! l' = h !! l').
Proof.
  intros Hk Hl h'. assert (lv <> l) by congruence.
  split; [|split].
  - unfold voe_setitem, load_voe, dict_getitem, store_edge_weight. run. reflexivity.
  - subst h'. rewrite lookup_insert_ne; congruence.
  - intros l' Hne. subst h'. rewrite lookup_insert_ne; congruence.
Qed.

(** Claim C5: the weighted read [vo[key]] raises [KeyError] on a
    destination never inserted (store unchanged, no default value), and
    otherwise is the parent graph's current [_edge_weight_fun] applied to
    the stored reference. *)
Lemma getitem_spec (key : vertex) :
  (edges v !! key = None -> voe_getitem (PyRef lv) key h = (inl KeyError, h)) /\
  (forall e lg rg f,
     edges v !! key = Some e -> road_graph v = PyRef lg ->
     h !! lg = Some (ORG rg) -> _edge_weight_fun rg = Some f ->
     voe_getitem (PyRef lv) key h = apply_weight_fun f e h).
Proof.
  split.
  - intros Habs. unfold voe_getitem, load_voe, dict_getitem. run. reflexivity.
  - intros e lg rg f He Hr Hg Hf.
    unfold voe_getitem, load_voe, load_rg, dict_getitem. run. reflexivity.
Qed.

(** Claim C2: with a [weight] attribute the read returns it in both
    modes ["length"] and ["time"]; without it, it returns [length] in mode
    ["length"] and [time] in mode ["time"]. *)
Lemma getitem_weight_resolution (key : vertex) (l lg : loc) (ed : Edge) (rg : RoadGraph) :
  edges v !! key = Some (PyRef l) -> h !! l = Some (OEdge ed) ->
  road_graph v = PyRef lg -> h !! lg = Some (ORG rg) ->
  (forall w, weight ed = Some w ->
     _edge_weight_fun rg = Some WLength \/ _edge_weight_fun rg = Some WTime ->
     voe_getitem (PyRef lv) key h = (inr w, h)) /\
  (weight ed = None -> _edge_weight_fun rg = Some WLength ->
     voe_getitem (PyRef lv) key h = (inr (length ed), h)) /\
  (forall t, weight ed = None -> time ed = Some t -> _edge_weight_fun rg = Some WTime ->
     voe_getitem (PyRef lv) key h = (inr t, h)).
Proof.
  intros Hk Hl Hr Hg.
  split; [|split].
  - intros w Hw [Hf|Hf];
      unfold voe_getitem, load_voe, load_rg, dict_getitem, apply_weight_fun, load_edge;
      run; reflexivity.
  - intros Hw Hf.
    unfold voe_getitem, load_voe, load_rg, dict_getitem, apply_weight_fun, load_edge.
    run. reflexivity.
  - intros t Hw Ht Hf.
    unfold voe_getitem, load_voe, load_rg, dict_getitem, apply_weight_fun, load_edge.
    run. reflexivity.
Qed.

(** Claim C7: [set_edge(key, x)] stores [x] for [key], overwriting any
    prior entry, and a following [get_edge(key)] returns [x] itself. *)
Lemma set_edge_get_edge (key : vertex) (x : pyval) :
  let h' := <[lv := OVOE (mkVOE (road_graph v) (<[key := x]> (edges v)))]> h in
  voe_set_edge (PyRef lv) key x h = (inr (), h') /\
  voe_get_edge (PyRef lv) key h' = (inr x, h').
Proof.
  intros h'. split.
  - unfold voe_set_edge, load_voe. run. reflexivity.
  - unfold voe_get_edge, load_voe, dict_getitem. subst h'.
    unfold_M. cbn. rewrite lookup_insert_eq. cbn. rewrite lookup_insert_eq. reflexivity.
Qed.

End VOE_methods.

(** ** RoadGraph: the weight function *)

(** Claim C10: [set_edge_weight_function()] / [(None)] does not raise: it
    installs the ["length"] lambda, as [fun="length"] does, and as
    [RoadGraph()] does. *)
Lemma set_edge_weight_function_default (h : store) (lg : loc) (rg : RoadGraph) :
  h !! lg = Some (ORG rg) ->
  let h' := <[lg := ORG (mkRG (graph rg) (Some WLength))]> h in
  set_edge_weight_function (PyRef lg) ArgNone h = (inr (), h') /\
  set_edge_weight_function (PyRef lg) (ArgStr "length") h = (inr (), h') /\
  (forall h0, exists l0,
     RoadGraph_new h0 = (inr (PyRef l0), <[l0 := ORG (mkRG ∅ (Some WLength))]> h0)).
Proof.
  intros Hg h'. split; [|split].
  - unfold set_edge_weight_function, set_weight_fun_attr, load_rg. run. reflexivity.
  - unfold set_edge_weight_function, set_weight_fun_attr, load_rg.
    run. rewrite bool_decide_true by reflexivity. run. reflexivity.
  - intros h0. exists (fresh (dom h0)).
    unfold RoadGraph_new, set_edge_weight_function, set_weight_fun_attr, load_rg.
    run. rewrite lookup_insert_eq. cbn. rewrite insert_insert_eq. reflexivity.
Qed.

(** Claim C4 (as amended): any argument other than [None] that is neither
    ["length"], ["time"] nor callable raises [ValueError] before anything
    is written: the store, hence the installed function used by later
    reads, is unchanged.  [None] (the default argument) is accepted: it
    raises nothing and installs the ["length"] function, changing only
    that attribute of the graph. *)
Lemma set_edge_weight_function_invalid (h : store) (lg : loc) (rg : RoadGraph) :
  h !! lg = Some (ORG rg) ->
  (forall fn, is_none fn = false -> eq_str fn "length" = false ->
     eq_str fn "time" = false -> callable fn = false ->
     set_edge_weight_function (PyRef lg) fn h = (inl ValueError, h) /\
     get_edge_weight_function (PyRef lg) h =
       match _edge_weight_fun rg with
       | Some f => (inr f, h)
       | None => (inl AttributeError, h)
       end) /\
  set_edge_weight_function (PyRef lg) ArgNone h =
    (inr (), <[lg := ORG (mkRG (graph rg) (Some WLength))]> h).
Proof.
  intros Hg. split.
  - intros fn H1 H2 H3 H4. split.
    + unfold set_edge_weight_function. rewrite H1, H2, H3. cbn.
      destruct fn; cbn in *; try discriminate; reflexivity.
    + unfold get_edge_weight_function, load_rg. run.
      destruct (_edge_weight_fun rg); reflexivity.
  - unfold set_edge_weight_function, set_weight_fun_attr, load_rg. run. reflexivity.
Qed.

(** ** RoadGraph.reverse *)

Lemma arc_functional (h : store) (g : pyval) (s d : vertex) (e1 e2 : pyval) :
  arc h g s d e1 -> arc h g s d e2 -> e1 = e2.
Proof.
  intros (lg & rg & lv & v & -> & Hg & Hs & Hv & Hd)
         (lg' & rg' & lv' & v' & Heq & Hg' & Hs' & Hv' & Hd').
  injection Heq as <-. rewrite Hg in Hg'. injection Hg' as <-.
  rewrite Hs in Hs'. injection Hs' as <-. rewrite Hv in Hv'. injection Hv' as <-.
  congruence.
Qed.

Lemma rev_inv_iff (h0 : store) (ls lr : loc) (P Q : vertex -> vertex -> Prop)
    (m : gmap vertex pyval) (h : store) :
  (forall s d, P s d <-> Q s d) -> rev_inv h0 ls lr P m h -> rev_inv h0 ls lr Q m h.
Proof.
  intros HPQ (Hold & Hlr & Hm & Hinj & Harc).
  do 4 (split; [auto|]).
  intros d s e. rewrite Harc, HPQ. reflexivity.
Qed.

Lemma arc_after_set_edge (h : store) (lr l : loc) (m : gmap vertex pyval)
    (f : option weight_fun) (vx : VertexOutgoingEdges) (d s : vertex) (e : pyval)
    (d' s' : vertex) (e' : pyval) :
  h !! lr = Some (ORG (mkRG m f)) -> lr <> l ->
  m !! d = Some (PyRef l) -> h !! l = Some (OVOE vx) ->
  (forall d2, m !! d2 = Some (PyRef l) -> d2 = d) ->
  arc (<[l := OVOE (mkVOE (road_graph vx) (<[s := e]> (edges vx)))]> h) (PyRef lr) d' s' e'
  <-> (d' = d /\ s' = s /\ e' = e) \/ (~ (d' = d /\ s' = s) /\ arc h (PyRef lr) d' s' e').
Proof.
  intros Hlr Hne Hd Hl Hinj. split.
  - intros (lg & rg & lv & v & [=<-] & Hg & Hs & Hv & He).
    rewrite lookup_insert_ne in Hg by congruence.
    rewrite Hlr in Hg. injection Hg as <-. cbn in Hs.
    destruct (decide (lv = l)) as [->|Hlv].
    + apply Hinj in Hs as ->. rewrite lookup_insert_eq in Hv. injection Hv as <-.
      cbn in He. destruct (decide (s' = s)) as [->|Hs'].
      * rewrite lookup_insert_eq in He. injection He as ->. by left.
      * rewrite lookup_insert_ne in He by congruence. right. split; [intros [_ ?]; congruence|].
        exists lr, (mkRG m f), l, vx. auto.
    + rewrite lookup_insert_ne in Hv by congruence. right. split.
      * intros [-> _]. congruence.
      * exists lr, (mkRG m f), lv, v. auto.
  - intros [(-> & -> & ->)|(Hn & (lg & rg & lv & v & [=<-] & Hg & Hs & Hv & He))].
    + exists lr, (mkRG m f), l, (mkVOE (road_graph vx) (<[s := e]> (edges vx))).
      repeat split; auto.
      * by rewrite lookup_insert_ne by congruence.
      * by rewrite lookup_insert_eq.
      * cbn. by rewrite lookup_insert_eq.
    + rewrite Hlr in Hg. injection Hg as <-. cbn in Hs.
      exists lr, (mkRG m f), lv.
      destruct (decide (lv = l)) as [->|Hlv].
      * apply Hinj in Hs as ->. rewrite Hl in Hv. injection Hv as <-.
        exists (mkVOE (road_graph vx) (<[s := e]> (edges vx))).
        repeat split; auto.
        -- by rewrite lookup_insert_ne by congruence.
        -- by rewrite lookup_insert_eq.
        -- cbn. rewrite lookup_insert_ne; [done|]. intros ->. auto.
      * exists v. repeat split; auto.
        -- by rewrite lookup_insert_ne by congruence.
        -- by rewrite lookup_insert_ne by congruence.
Qed.

Lemma bind_inr {A B} (m : M A) (k : A -> M B) (h h' : store) (a : A) :
  m h = (inr a, h') -> (m ≫= k) h = k a h'.
Proof. intros H. unfold mbind, M_bind. by rewrite H. Qed.

Lemma is_voe_spec (h : store) (x : pyval) :
  is_voe h x = true -> exists lv v, x = PyRef lv /\ h !! lv = Some (OVOE v).
Proof.
  destruct x as [|l]; cbn; [discriminate|].
  destruct (h !! l) as [[]|] eqn:E; try discriminate. eauto.
Qed.

Lemma RoadGraph_new_run (h : store) :
  RoadGraph_new h =
    (inr (PyRef (fresh (dom h))),
     <[fresh (dom h) := ORG (mkRG ∅ (Some WLength))]> h).
Proof.
  unfold RoadGraph_new, set_edge_weight_function, set_weight_fun_attr, load_rg.
  run. rewrite lookup_insert_eq. cbn. rewrite insert_insert_eq. reflexivity.
Qed.

Lemma elem_of_dict_keys {V} (m : gmap vertex V) (k : vertex) :
  k ∈ dict_keys m <-> is_Some (m !! k).
Proof.
  unfold dict_keys. rewrite list_elem_of_fmap. split.
  - intros ([k' x] & -> & Hin). apply elem_of_map_to_list in Hin. cbn. eauto.
  - intros [x Hx]. exists (k, x). split; [done|]. by apply elem_of_map_to_list.
Qed.

Section Reverse.
Context (h0 : store) (ls lr : loc) (rs : RoadGraph).
Hypothesis Hself : h0 !! ls = Some (ORG rs).
Hypothesis Hlr0 : h0 !! lr = None.

Lemma reverse_ensure_ok (P : vertex -> vertex -> Prop) (m : gmap vertex pyval)
    (h : store) (d : vertex) :
  rev_inv h0 ls lr P m h ->
  exists m' h' l,
    reverse_ensure (PyRef lr) d h = (inr (), h') /\
    rev_inv h0 ls lr P m' h' /\ m' !! d = Some (PyRef l).
Proof.
  intros Hinv. pose proof Hinv as (Hold & Hlr & Hm & Hinj & Harc).
  destruct (m !! d) as [x|] eqn:Hd.
  - destruct (Hm d x Hd) as (l & v & -> & _).
    exists m, h, l. split; [|split; auto].
    unfold reverse_ensure, rg_contains, rg_getitem, load_rg, dict_getitem.
    run. reflexivity.
  - set (l := fresh (dom h)).
    assert (Hl : h !! l = None) by (apply not_elem_of_dom; apply is_fresh).
    assert (Hl0 : h0 !! l = None).
    { destruct (h0 !! l) eqn:E; [|done]. apply Hold in E. congruence. }
    assert (Hlrl : lr <> l) by congruence.
    exists (<[d := PyRef l]> m),
      (<[lr := ORG (mkRG (<[d := PyRef l]> m) (Some WLength))]>
        (<[l := OVOE (mkVOE (PyRef lr) ∅)]> h)), l.
    split; [|split].
    + unfold reverse_ensure, rg_contains, rg_getitem, load_rg, dict_getitem,
        VertexOutgoingEdges_new, rg_setitem.
      run. fold l. rewrite lookup_insert_ne by congruence. run. reflexivity.
    + split; [|split; [|split; [|split]]].
      * intros l' o Ho. pose proof (Hold l' o Ho).
        rewrite !lookup_insert_ne by congruence. done.
      * by rewrite lookup_insert_eq.
      * intros d' x Hx. destruct (decide (d' = d)) as [->|Hne].
        -- rewrite lookup_insert_eq in Hx. injection Hx as <-.
           exists l, (mkVOE (PyRef lr) ∅). repeat split; auto.
           rewrite lookup_insert_ne by congruence. by rewrite lookup_insert_eq.
        -- rewrite lookup_insert_ne in Hx by congruence.
           destruct (Hm d' x Hx) as (l'' & v'' & -> & H0 & Hh & Hr).
           exists l'', v''. repeat split; auto.
           rewrite !lookup_insert_ne by congruence. done.
      * intros d1 d2 l' H1 H2.
        destruct (decide (d1 = d)) as [->|Hne1]; destruct (decide (d2 = d)) as [->|Hne2];
          auto.
        -- rewrite lookup_insert_eq in H1. rewrite lookup_insert_ne in H2 by congruence.
           injection H1 as <-. destruct (Hm _ _ H2) as (l'' & v'' & [=<-] & _ & Hh & _).
           congruence.
        -- rewrite lookup_insert_eq in H2. rewrite lookup_insert_ne in H1 by congruence.
           injection H2 as <-. destruct (Hm _ _ H1) as (l'' & v'' & [=<-] & _ & Hh & _).
           congruence.
        -- rewrite lookup_insert_ne in H1, H2 by congruence. eauto.
      * intros d' s' e'. split.
        -- intros Ha. apply Harc.
           destruct Ha as (lg & rg & lv & v & [=<-] & Hg & Hs & Hv & He).
           rewrite lookup_insert_eq in Hg. injection Hg as <-. cbn in Hs.
           destruct (decide (d' = d)) as [->|Hne].
           ++ rewrite lookup_insert_eq in Hs. injection Hs as <-.
              rewrite lookup_insert_ne, lookup_insert_eq in Hv by congruence.
              injection Hv as <-. cbn in He. by rewrite lookup_empty in He.
           ++ rewrite lookup_insert_ne in Hs by congruence.
              destruct (Hm _ _ Hs) as (l'' & v'' & [=<-] & _ & Hh & _).
              rewrite !lookup_insert_ne in Hv by congruence.
              exists lr, (mkRG m (Some WLength)), lv, v. auto.
        -- intros Ha. apply Harc in Ha.
           destruct Ha as (lg & rg & lv & v & [=<-] & Hg & Hs & Hv & He).
           rewrite Hlr in Hg. injection Hg as <-. cbn in Hs.
           assert (d' <> d) by congruence.
           destruct (Hm _ _ Hs) as (l'' & v'' & [=<-] & _ & Hh & _).
           exists lr, (mkRG (<[d := PyRef l]> m) (Some WLength)), lv, v.
           repeat split; auto.
           ++ by rewrite lookup_insert_eq.
           ++ cbn. by rewrite lookup_insert_ne by congruence.
           ++ rewrite !lookup_insert_ne by congruence. done.
    + by rewrite lookup_insert_eq.
Qed.

Lemma reverse_link_ok (P : vertex -> vertex -> Prop) (m : gmap vertex pyval)
    (h : store) (s d : vertex) (lv : loc) (v : VertexOutgoingEdges) (e x : pyval) :
  graph rs !! s = Some (PyRef lv) -> h0 !! lv = Some (OVOE v) -> edges v !! d = Some e ->
  rev_inv h0 ls lr P m h -> m !! d = Some x ->
  exists h', reverse_link (PyRef ls) (PyRef lr) s d h = (inr (), h') /\
    rev_inv h0 ls lr (fun s' d' => P s' d' \/ (s' = s /\ d' = d)) m h'.
Proof.
  intros Hs Hv He Hinv Hx. pose proof Hinv as (Hold & Hlr & Hm & Hinj & Harc).
  destruct (Hm d x Hx) as (l & vx & -> & Hl0 & Hl & Hr).
  assert (Hlrl : lr <> l) by congruence.
  assert (Hls : h !! ls = Some (ORG rs)) by auto.
  assert (Hlv : h !! lv = Some (OVOE v)) by auto.
  assert (Harc0 : arc h0 (PyRef ls) s d e) by (exists ls, rs, lv, v; auto).
  exists (<[l := OVOE (mkVOE (road_graph vx) (<[s := e]> (edges vx)))]> h).
  split.
  - unfold reverse_link, rg_getitem, load_rg, dict_getitem, voe_get_edge, voe_set_edge,
      load_voe.
    run. unfold dict_getitem. run. reflexivity.
  - split; [|split; [|split; [|split]]].
    + intros l' o Ho. rewrite lookup_insert_ne; [auto|]. congruence.
    + by rewrite lookup_insert_ne by congruence.
    + intros d' x' Hx'. destruct (Hm d' x' Hx') as (l'' & v'' & -> & H0 & Hh & Hr').
      destruct (decide (l'' = l)) as [->|Hne].
      * exists l, (mkVOE (road_graph vx) (<[s := e]> (edges vx))).
        repeat split; auto. by rewrite lookup_insert_eq.
      * exists l'', v''. repeat split; auto. by rewrite lookup_insert_ne by congruence.
    + exact Hinj.
    + intros d' s' e'.
      rewrite (arc_after_set_edge h lr l m (Some WLength) vx d s e d' s' e' Hlr Hlrl Hx Hl)
        by (intros d2 Hd2; eauto).
      split.
      * intros [(-> & -> & ->)|(Hn & Ha)].
        -- split; auto.
        -- apply Harc in Ha as [Hp Ha]. auto.
      * intros [[Hp|[-> ->]] Ha].
        -- destruct (decide (d' = d /\ s' = s)) as [[-> ->]|Hn].
           ++ left. repeat split; auto. eapply arc_functional; eauto.
           ++ right. split; [done|]. apply Harc. auto.
        -- left. repeat split; auto. eapply arc_functional; eauto.
Qed.

Lemma reverse_inner_loop_ok (s : vertex) (lv : loc) (v : VertexOutgoingEdges)
    (ds : list vertex) :
  graph rs !! s = Some (PyRef lv) -> h0 !! lv = Some (OVOE v) ->
  (forall d, d ∈ ds -> is_Some (edges v !! d)) ->
  forall P m h, rev_inv h0 ls lr P m h ->
  exists m' h',
    for_each ds (reverse_inner (PyRef ls) (PyRef lr) s) h = (inr (), h') /\
    rev_inv h0 ls lr (fun s' d' => P s' d' \/ (s' = s /\ d' ∈ ds)) m' h'.
Proof.
  intros Hs Hv. induction ds as [|d ds IH]; intros Hds P m h Hinv.
  - exists m, h. split; [reflexivity|].
    eapply rev_inv_iff; [|exact Hinv].
    intros s' d'. rewrite elem_of_nil. tauto.
  - destruct (Hds d ltac:(left)) as [e He].
    destruct (reverse_ensure_ok P m h d Hinv) as (m1 & h1 & l & Hens & Hinv1 & Hm1).
    destruct (reverse_link_ok P m1 h1 s d lv v e (PyRef l) Hs Hv He Hinv1 Hm1)
      as (h2 & Hlink & Hinv2).
    destruct (IH ltac:(intros d' Hd'; apply Hds; by right) _ _ _ Hinv2)
      as (m' & h' & Hloop & Hinv').
    exists m', h'. split.
    + cbn [for_each]. unfold reverse_inner.
      erewrite bind_inr; [exact Hloop|].
      erewrite bind_inr; [exact Hlink|exact Hens].
    + eapply rev_inv_iff; [|exact Hinv'].
      intros s' d'. rewrite elem_of_cons. tauto.
Qed.

Section Outer.
Hypothesis Hwf : forall s x, graph rs !! s = Some x ->
  exists lv v, x = PyRef lv /\ h0 !! lv = Some (OVOE v).

Lemma reverse_outer_loop_ok (ss : list vertex) :
  (forall s, s ∈ ss -> is_Some (graph rs !! s)) ->
  forall P m h, rev_inv h0 ls lr P m h ->
  exists m' h',
    for_each ss (reverse_outer (PyRef ls) (PyRef lr)) h = (inr (), h') /\
    rev_inv h0 ls lr (fun s' d' => P s' d' \/ visited h0 rs ss s' d') m' h'.
Proof.
  induction ss as [|s ss IH]; intros Hss P m h Hinv.
  - exists m, h. split; [reflexivity|].
    eapply rev_inv_iff; [|exact Hinv].
    intros s' d'. unfold visited. rewrite elem_of_nil. tauto.
  - destruct (Hss s ltac:(left)) as [x Hx].
    destruct (Hwf s x Hx) as (lv & v & -> & Hv).
    pose proof Hinv as (Hold & _).
    destruct (reverse_inner_loop_ok s lv v (dict_keys (edges v)) Hx Hv
                (fun d Hd => proj1 (elem_of_dict_keys _ _) Hd) P m h Hinv)
      as (m1 & h1 & Hin & Hinv1).
    destruct (IH ltac:(intros s' Hs'; apply Hss; by right) _ _ _ Hinv1)
      as (m' & h' & Hloop & Hinv').
    exists m', h'. split.
    + cbn [for_each]. erewrite bind_inr; [exact Hloop|].
      unfold reverse_outer, load_rg, iter_keys, dict_getitem.
      assert (Hls : h !! ls = Some (ORG rs)) by auto.
      assert (Hlv : h !! lv = Some (OVOE v)) by auto.
      run. exact Hin.
    + eapply rev_inv_iff; [|exact Hinv'].
      intros s' d'. unfold visited. rewrite elem_of_cons. split.
      * intros [[Hp|[-> Hd]]|(Hs' & lv' & v' & H1 & H2 & H3)]; auto.
        -- right. split; [by left|]. exists lv, v. auto.
        -- right. split; [by right|]. exists lv', v'. auto.
      * intros [Hp|([->|Hs'] & lv' & v' & H1 & H2 & H3)]; auto.
        -- left. right. split; [done|].
           rewrite Hx in H1. injection H1 as <-. rewrite Hv in H2. injection H2 as <-.
           done.
        -- right. split; [done|]. exists lv', v'. auto.
Qed.

End Outer.
End Reverse.

(** What [reverse] does on a road graph: it returns a new RoadGraph
    object [lr], leaves every object of the initial store as it was, wires
    new VertexOutgoingEdges objects to [lr], installs the default weight
    function, and stores exactly the reversed arcs, with the same edge
    references. *)
Lemma reverse_run (h0 : store) (ls : loc) :
  road_graph_wf h0 (PyRef ls) ->
  exists lr m h',
    reverse (PyRef ls) h0 = (inr (PyRef lr), h') /\
    h0 !! lr = None /\
    (forall l o, h0 !! l = Some o -> h' !! l = Some o) /\
    h' !! lr = Some (ORG (mkRG m (Some WLength))) /\
    road_graph_wf h' (PyRef lr) /\
    (forall d s e, arc h' (PyRef lr) d s e <-> arc h0 (PyRef ls) s d e).
Proof.
  intros (lg & rs & [=<-] & Hself & Hwf').
  assert (Hwf : forall s x, graph rs !! s = Some x ->
            exists lv v, x = PyRef lv /\ h0 !! lv = Some (OVOE v))
    by (intros s x Hx; apply is_voe_spec; exact (Hwf' s x Hx)).
  set (lr := fresh (dom h0)).
  assert (Hlr0 : h0 !! lr = None) by (apply not_elem_of_dom; apply is_fresh).
  set (h1 := <[lr := ORG (mkRG ∅ (Some WLength))]> h0).
  assert (Hinv1 : rev_inv h0 ls lr (fun _ _ => False) ∅ h1).
  { split; [|split; [|split; [|split]]].
    - intros l o Ho. subst h1. rewrite lookup_insert_ne; [done|congruence].
    - subst h1. by rewrite lookup_insert_eq.
    - intros d x Hx. by rewrite lookup_empty in Hx.
    - intros d1 d2 l Hx. by rewrite lookup_empty in Hx.
    - intros d s e. split; [|tauto].
      intros (lg & rg & lv & v & [=<-] & Hg & Hs & _).
      subst h1. rewrite lookup_insert_eq in Hg. injection Hg as <-.
      cbn in Hs. by rewrite lookup_empty in Hs. }
  destruct (reverse_outer_loop_ok h0 ls lr rs Hself Hlr0 Hwf (dict_keys (graph rs))
              (fun s Hs => proj1 (elem_of_dict_keys _ _) Hs) _ _ _ Hinv1)
    as (m & h' & Hloop & (Hold & Hlr & Hm & Hinj & Harc)).
  exists lr, m, h'. split; [|split; [done|split; [done|split; [done|split]]]].
  - unfold reverse. rewrite (bind_inr _ _ h0 h1 (PyRef lr)) by apply RoadGraph_new_run.
    assert (Hls : h1 !! ls = Some (ORG rs)).
    { subst h1. rewrite lookup_insert_ne; [done|congruence]. }
    unfold load_rg. run. reflexivity.
  - exists lr, (mkRG m (Some WLength)). split; [done|split; [done|]].
    intros s x Hx. cbn in Hx. destruct (Hm s x Hx) as (l & v & -> & _ & Hv & _).
    cbn. by rewrite Hv.
  - intros d s e. rewrite Harc. split; [tauto|].
    intros Ha. split; [|done]. right.
    destruct Ha as (lg & rg & lv & v & [=<-] & Hg & Hs & Hv & He).
    rewrite Hself in Hg. injection Hg as <-.
    split; [apply elem_of_dict_keys; eauto|].
    exists lv, v. repeat split; auto. apply elem_of_dict_keys. eauto.
Qed.

(** Claim C1: on a road graph [G] (at [ls]), [reverse()] returns a new
    RoadGraph object [lr] whose entry for [dest] maps [src] to the very
    same edge reference [e] for every arc [src -> dest] of [G] stored as
    [e], with no other arcs; every object that existed before the call,
    [G], its VertexOutgoingEdges and the Edge objects among them, is
    unchanged. *)
Theorem reverse_reverses_arcs (h0 : store) (ls : loc) :
  road_graph_wf h0 (PyRef ls) ->
  exists lr h',
    reverse (PyRef ls) h0 = (inr (PyRef lr), h') /\
    h0 !! lr = None /\
    (forall s d e, arc h0 (PyRef ls) s d e -> arc h' (PyRef lr) d s e) /\
    (forall d s e, arc h' (PyRef lr) d s e -> arc h0 (PyRef ls) s d e) /\
    (forall l o, h0 !! l = Some o -> h' !! l = Some o).
Proof.
  intros Hwf.
  destruct (reverse_run h0 ls Hwf) as (lr & m & h' & Hrun & Hfresh & Hold & _ & _ & Harc).
  exists lr, h'. split; [done|split; [done|split; [|split; [|done]]]].
  - intros s d e Ha. by apply Harc.
  - intros d s e Ha. by apply Harc.
Qed.

(** Claim C6: reversing a road graph twice gives a graph with the same
    [(source, destination, edge)] triples as the original. *)
Theorem reverse_twice_same_arcs (h0 : store) (ls : loc) :
  road_graph_wf h0 (PyRef ls) ->
  exists g1 h1 g2 h2,
    reverse (PyRef ls) h0 = (inr g1, h1) /\
    reverse g1 h1 = (inr g2, h2) /\
    (forall s d e, arc h2 g2 s d e <-> arc h0 (PyRef ls) s d e).
Proof.
  intros Hwf.
  destruct (reverse_run h0 ls Hwf) as (l1 & m1 & h1 & Hrun1 & _ & _ & _ & Hwf1 & Harc1).
  destruct (reverse_run h1 l1 Hwf1) as (l2 & m2 & h2 & Hrun2 & _ & _ & _ & _ & Harc2).
  exists (PyRef l1), h1, (PyRef l2), h2. split; [done|split; [done|]].
  intros s d e. rewrite Harc2, Harc1. reflexivity.
Qed.

(** Claim C8: whatever weight function [G] has, the graph returned by
    [G.reverse()] has the default ["length"] function installed, the one a
    new [RoadGraph()] has. *)
Theorem reverse_default_weight_fun (h0 : store) (ls : loc) :
  road_graph_wf h0 (PyRef ls) ->
  exists lr h' rg,
    reverse (PyRef ls) h0 = (inr (PyRef lr), h') /\
    h' !! lr = Some (ORG rg) /\
    _edge_weight_fun rg = Some WLength /\
    (forall h, exists l,
       RoadGraph_new h = (inr (PyRef l), <[l := ORG (mkRG ∅ (Some WLength))]> h)).
Proof.
  intros Hwf.
  destruct (reverse_run h0 ls Hwf) as (lr & m & h' & Hrun & _ & _ & Hlr & _ & _).
  exists lr, h', (mkRG m (Some WLength)). repeat split; auto.
  intros h. exists (fresh (dom h)). apply RoadGraph_new_run.
Qed.

(** ** Witnesses and counterexamples on the store [ex_store] *)

Definition ex_voe_A : VertexOutgoingEdges :=
  mkVOE (PyRef 1%positive) (<[2%Z := PyRef 4%positive]> ∅).

Definition ex_graph : RoadGraph :=
  mkRG (<[1%Z := PyRef 2%positive]> (<[2%Z := PyRef 3%positive]> ∅)) (Some WTime).

Definition ex_voe_B : VertexOutgoingEdges :=
  mkVOE (PyRef 1%positive) (<[3%Z := PyRef 5%positive]> ∅).

Ltac ex_wf :=
  exists 1%positive, ex_graph; split; [reflexivity|split; [reflexivity|]];
  apply (bool_decide_unpack _); vm_compute; exact I.

Lemma reverse_reverses_arcs_witness :
  road_graph_wf ex_store (PyRef 1%positive) /\
  exists lr h',
    reverse (PyRef 1%positive) ex_store = (inr (PyRef lr), h') /\
    ex_store !! lr = None /\
    (forall s d e, arc ex_store (PyRef 1%positive) s d e -> arc h' (PyRef lr) d s e) /\
    (forall d s e, arc h' (PyRef lr) d s e -> arc ex_store (PyRef 1%positive) s d e) /\
    (forall l o, ex_store !! l = Some o -> h' !! l = Some o).
Proof.
  assert (W : road_graph_wf ex_store (PyRef 1%positive)) by ex_wf.
  split; [exact W|exact (reverse_reverses_arcs ex_store 1%positive W)].
Defined.

Lemma reverse_twice_same_arcs_witness :
  road_graph_wf ex_store (PyRef 1%positive) /\
  exists g1 h1 g2 h2,
    reverse (PyRef 1%positive) ex_store = (inr g1, h1) /\
    reverse g1 h1 = (inr g2, h2) /\
    (forall s d e, arc h2 g2 s d e <-> arc ex_store (PyRef 1%positive) s d e).
Proof.
  assert (W : road_graph_wf ex_store (PyRef 1%positive)) by ex_wf.
  split; [exact W|exact (reverse_twice_same_arcs ex_store 1%positive W)].
Defined.

Lemma reverse_default_weight_fun_witness :
  road_graph_wf ex_store (PyRef 1%positive) /\
  exists lr h' rg,
    reverse (PyRef 1%positive) ex_store = (inr (PyRef lr), h') /\
    h' !! lr = Some (ORG rg) /\
    _edge_weight_fun rg = Some WLength /\
    (forall h, exists l,
       RoadGraph_new h = (inr (PyRef l), <[l := ORG (mkRG ∅ (Some WLength))]> h)).
Proof.
  assert (W : road_graph_wf ex_store (PyRef 1%positive)) by ex_wf.
  split; [exact W|exact (reverse_default_weight_fun ex_store 1%positive W)].
Defined.

Lemma setitem_absent_key_error_witness :
  ex_store !! 2%positive = Some (OVOE ex_voe_A) /\
  voe_setitem (PyRef 2%positive) 7%Z 9%Z ex_store = (inl KeyError, ex_store).
Proof.
  split; [reflexivity|].
  apply (setitem_absent_key_error ex_store 2%positive ex_voe_A); reflexivity.
Defined.

Lemma setitem_existing_sets_weight_witness :
  voe_setitem (PyRef 2%positive) 2%Z 11%Z ex_store =
    (inr (), <[4%positive := OEdge (mkEdge 5 None (Some 11%Z))]> ex_store).
Proof.
  exact (proj1 (setitem_existing_sets_weight ex_store 2%positive ex_voe_A
                  eq_refl 2%Z 11%Z 4%positive (mkEdge 5 None None) eq_refl eq_refl)).
Defined.

Lemma getitem_spec_witness :
  (edges ex_voe_A !! 7%Z = None ->
     voe_getitem (PyRef 2%positive) 7%Z ex_store = (inl KeyError, ex_store)) /\
  (forall e lg rg f,
     edges ex_voe_A !! 2%Z = Some e -> road_graph ex_voe_A = PyRef lg ->
     ex_store !! lg = Some (ORG rg) -> _edge_weight_fun rg = Some f ->
     voe_getitem (PyRef 2%positive) 2%Z ex_store = apply_weight_fun f e ex_store).
Proof.
  split.
  - exact (proj1 (getitem_spec ex_store 2%positive ex_voe_A eq_refl 7%Z)).
  - exact (proj2 (getitem_spec ex_store 2%positive ex_voe_A eq_refl 2%Z)).
Defined.

(** [ex_store] with the graph switched to mode ["length"], and with
    [A -> B] given the weight 11. *)
Definition ex_store_len : store :=
  <[1%positive := ORG (mkRG (graph ex_graph) (Some WLength))]> ex_store.

Definition ex_store_w : store :=
  <[4%positive := OEdge (mkEdge 5 None (Some 11%Z))]> ex_store.

Lemma getitem_weight_resolution_witness :
  voe_getitem (PyRef 2%positive) 2%Z ex_store_w = (inr 11%Z, ex_store_w) /\
  voe_getitem (PyRef 2%positive) 2%Z ex_store_len = (inr 5%Z, ex_store_len) /\
  voe_getitem (PyRef 3%positive) 3%Z ex_store = (inr 7%Z, ex_store).
Proof.
  split; [|split].
  - apply (proj1 (getitem_weight_resolution ex_store_w 2%positive ex_voe_A eq_refl
           2%Z 4%positive 1%positive (mkEdge 5 None (Some 11%Z)) ex_graph
           eq_refl eq_refl eq_refl eq_refl) 11%Z eq_refl).
    right. reflexivity.
  - apply (proj1 (proj2 (getitem_weight_resolution ex_store_len 2%positive ex_voe_A
           eq_refl 2%Z 4%positive 1%positive (mkEdge 5 None None)
           (mkRG (graph ex_graph) (Some WLength)) eq_refl eq_refl eq_refl eq_refl)));
      reflexivity.
  - apply (proj2 (proj2 (getitem_weight_resolution ex_store 3%positive ex_voe_B
           eq_refl 3%Z 5%positive 1%positive (mkEdge 3 (Some 7%Z) None) ex_graph
           eq_refl eq_refl eq_refl eq_refl)) 7%Z); reflexivity.
Defined.

Lemma set_edge_get_edge_witness :
  voe_get_edge (PyRef 2%positive) 9%Z
    (<[2%positive := OVOE (mkVOE (PyRef 1%positive) (<[9%Z := PyRef 5%positive]>
                                                     (edges ex_voe_A)))]> ex_store)
  = (inr (PyRef 5%positive),
     <[2%positive := OVOE (mkVOE (PyRef 1%positive) (<[9%Z := PyRef 5%positive]>
                                                     (edges ex_voe_A)))]> ex_store).
Proof.
  exact (proj2 (set_edge_get_edge ex_store 2%positive ex_voe_A eq_refl 9%Z
                  (PyRef 5%positive))).
Defined.

Lemma set_edge_weight_function_default_witness :
  set_edge_weight_function (PyRef 1%positive) ArgNone ex_store =
    (inr (), <[1%positive := ORG (mkRG (graph ex_graph) (Some WLength))]> ex_store).
Proof.
  exact (proj1 (set_edge_weight_function_default ex_store 1%positive ex_graph eq_refl)).
Defined.

Lemma set_edge_weight_function_invalid_witness :
  ex_store !! 1%positive = Some (ORG ex_graph) /\
  (set_edge_weight_function (PyRef 1%positive) (ArgStr "distance") ex_store =
     (inl ValueError, ex_store) /\
   get_edge_weight_function (PyRef 1%positive) ex_store = (inr WTime, ex_store)) /\
  set_edge_weight_function (PyRef 1%positive) ArgNone ex_store =
    (inr (), <[1%positive := ORG (mkRG (graph ex_graph) (Some WLength))]> ex_store).
Proof.
  split; [reflexivity|].
  destruct (set_edge_weight_function_invalid ex_store 1%positive ex_graph eq_refl)
    as [Hinv Hnone].
  split; [|exact Hnone].
  apply (Hinv (ArgStr "distance")); vm_compute; reflexivity.
Defined.

(** Claim C4 fails on [None]: [None] is neither ["length"], ["time"] nor
    callable, yet [set_edge_weight_function(None)] raises nothing and
    replaces the installed ["time"] function by the ["length"] one. *)
Lemma set_edge_weight_function_none_counterexample :
  eq_str ArgNone "length" = false /\ eq_str ArgNone "time" = false /\
  callable ArgNone = false /\
  _edge_weight_fun ex_graph = Some WTime /\
  set_edge_weight_function (PyRef 1%positive) ArgNone ex_store =
    (inr (), <[1%positive := ORG (mkRG (graph ex_graph) (Some WLength))]> ex_store).
Proof. repeat split; reflexivity. Qed.

(** ** Further properties of the module *)

Lemma Edge_new_run (h : store) (len : Z) :
  Edge_new len h =
    (inr (PyRef (fresh (dom h))), <[fresh (dom h) := OEdge (mkEdge len None None)]> h).
Proof. reflexivity. Qed.

(** A new [Edge(len)] stored with [set_edge] reads as [len] in mode
    ["length"], but the read raises [AttributeError] in mode ["time"]: the
    constructor sets neither [time] nor [weight]. *)
Theorem new_edge_weighted_read (h : store) (lv lg : loc) (v : VertexOutgoingEdges)
    (rg : RoadGraph) (key : vertex) (len : Z) :
  h !! lv = Some (OVOE v) -> road_graph v = PyRef lg -> h !! lg = Some (ORG rg) ->
  exists le h1 h2,
    Edge_new len h = (inr (PyRef le), h1) /\
    voe_set_edge (PyRef lv) key (PyRef le) h1 = (inr (), h2) /\
    (_edge_weight_fun rg = Some WLength -> voe_getitem (PyRef lv) key h2 = (inr len, h2)) /\
    (_edge_weight_fun rg = Some WTime ->
       voe_getitem (PyRef lv) key h2 = (inl AttributeError, h2)).
Proof.
  intros Hv Hr Hg.
  set (le := fresh (dom h)).
  assert (Hle : h !! le = None) by (apply not_elem_of_dom; apply is_fresh).
  set (h1 := <[le := OEdge (mkEdge len None None)]> h).
  assert (Hv1 : h1 !! lv = Some (OVOE v)).
  { subst h1. rewrite lookup_insert_ne; [done|congruence]. }
  set (v2 := mkVOE (road_graph v) (<[key := PyRef le]> (edges v))).
  set (h2 := <[lv := OVOE v2]> h1).
  assert (Hv2 : h2 !! lv = Some (OVOE v2)) by (subst h2; by rewrite lookup_insert_eq).
  assert (Hg2 : h2 !! lg = Some (ORG rg)).
  { subst h2 h1. rewrite !lookup_insert_ne; [done|congruence|congruence]. }
  assert (He2 : h2 !! le = Some (OEdge (mkEdge len None None))).
  { subst h2 h1. rewrite lookup_insert_ne by congruence. by rewrite lookup_insert_eq. }
  assert (Hk : edges v2 !! key = Some (PyRef le)) by (cbn; by rewrite lookup_insert_eq).
  assert (Hr2 : road_graph v2 = PyRef lg) by (cbn; done).
  exists le, h1, h2. split; [reflexivity|split; [|split]].
  - unfold voe_set_edge, load_voe. run. reflexivity.
  - intros Hf. clearbody h2 v2.
    unfold voe_getitem, load_voe, load_rg, dict_getitem, apply_weight_fun,
      load_edge. run. reflexivity.
  - intros Hf. clearbody h2 v2.
    unfold voe_getitem, load_voe, load_rg, dict_getitem, apply_weight_fun,
      load_edge. run. reflexivity.
Qed.

(** Every argument that [set_edge_weight_function] accepts ([None],
    ["length"], ["time"] or a callable) only replaces the attribute
    [_edge_weight_fun] of the graph (its dict and every other object stay
    as they were), and [get_edge_weight_function] then returns the selected
    function. *)
Theorem set_then_get_edge_weight_function (h : store) (lg : loc) (rg : RoadGraph)
    (fn : pyarg) (f : weight_fun) :
  h !! lg = Some (ORG rg) ->
  ((fn = ArgNone \/ fn = ArgStr "length") /\ f = WLength) \/
  (fn = ArgStr "time" /\ f = WTime) \/
  (exists g, fn = ArgCallable g /\ f = WCustom g) ->
  let h' := <[lg := ORG (mkRG (graph rg) (Some f))]> h in
  set_edge_weight_function (PyRef lg) fn h = (inr (), h') /\
  get_edge_weight_function (PyRef lg) h' = (inr f, h').
Proof.
  intros Hg Hfn h'. split.
  - unfold set_edge_weight_function, set_weight_fun_attr, load_rg.
    destruct Hfn as [[[->| ->] ->]|[[-> ->]|(g & -> & ->)]];
      run; try rewrite bool_decide_true by reflexivity; run; try reflexivity.
    rewrite bool_decide_false by discriminate. run.
    rewrite bool_decide_true by reflexivity. run. reflexivity.
  - unfold get_edge_weight_function, load_rg. subst h'. unfold_M.
    rewrite lookup_insert_eq. reflexivity.
Qed.

(** Switching a graph to mode ["time"] changes what later weighted reads
    through its VertexOutgoingEdges return, without touching the stored
    edges: only the graph's [_edge_weight_fun] is written (every other
    object, each Edge and each VertexOutgoingEdges included, is unchanged),
    and an Edge without [weight] then reads as its [time]. *)
Theorem time_mode_switch_read (h : store) (lv lg l : loc) (v : VertexOutgoingEdges)
    (rg : RoadGraph) (key : vertex) (ed : Edge) (t : Z) :
  h !! lv = Some (OVOE v) -> road_graph v = PyRef lg -> h !! lg = Some (ORG rg) ->
  edges v !! key = Some (PyRef l) -> h !! l = Some (OEdge ed) ->
  weight ed = None -> time ed = Some t ->
  let h' := <[lg := ORG (mkRG (graph rg) (Some WTime))]> h in
  set_edge_weight_function (PyRef lg) (ArgStr "time") h = (inr (), h') /\
  (forall l', l' <> lg -> h' !! l' = h !! l') /\
  voe_getitem (PyRef lv) key h' = (inr t, h').
Proof.
  intros Hv Hr Hg Hk Hl Hw Ht.
  destruct (set_then_get_edge_weight_function h lg rg (ArgStr "time") WTime Hg
              ltac:(right; left; done)) as [Hset _].
  intros h'. fold h' in Hset.
  assert (lg <> lv) by congruence. assert (lg <> l) by congruence.
  assert (Hother : forall l', l' <> lg -> h' !! l' = h !! l')
    by (intros l' Hne; subst h'; by rewrite lookup_insert_ne).
  assert (Hv' : h' !! lv = Some (OVOE v)) by (subst h'; by rewrite lookup_insert_ne).
  assert (Hl' : h' !! l = Some (OEdge ed)) by (subst h'; by rewrite lookup_insert_ne).
  assert (Hg' : h' !! lg = Some (ORG (mkRG (graph rg) (Some WTime))))
    by (subst h'; by rewrite lookup_insert_eq).
  split; [exact Hset|split; [exact Hother|]]. clearbody h'.
  unfold voe_getitem, load_voe, load_rg, dict_getitem, apply_weight_fun, load_edge.
  run. reflexivity.
Qed.

(** [del vo[key]] raises [KeyError] on an absent key without changing
    anything; on a present key it removes that entry only: [get_edge(key)]
    then raises [KeyError] and [len(vo)] drops by one. *)
Theorem voe_delitem_spec (h : store) (lv : loc) (v : VertexOutgoingEdges) (key : vertex) :
  h !! lv = Some (OVOE v) ->
  (edges v !! key = None -> voe_delitem (PyRef lv) key h = (inl KeyError, h)) /\
  (forall e, edges v !! key = Some e ->
   let h' := <[lv := OVOE (mkVOE (road_graph v) (delete key (edges v)))]> h in
   voe_delitem (PyRef lv) key h = (inr (), h') /\
   voe_get_edge (PyRef lv) key h' = (inl KeyError, h') /\
   voe_len (PyRef lv) h' = (inr (pred (size (edges v))), h') /\
   size (edges v) <> 0%nat).
Proof.
  intros Hv. split.
  - intros Hk. unfold voe_delitem, load_voe. run. reflexivity.
  - intros e Hk h'. split; [|split; [|split]].
    + unfold voe_delitem, load_voe. run. reflexivity.
    + unfold voe_get_edge, load_voe, dict_getitem. subst h'. unfold_M.
      rewrite lookup_insert_eq. cbn. by rewrite lookup_delete_eq.
    + unfold voe_len, load_voe. subst h'. unfold_M.
      rewrite lookup_insert_eq. cbn. rewrite map_size_delete, Hk. reflexivity.
    + rewrite map_size_ne_0_lookup. eauto.
Qed.

(** Inserting a brand-new destination with [set_edge] and deleting it
    again with [del] gives back exactly the original store. *)
Theorem set_edge_delitem_roundtrip (h : store) (lv : loc) (v : VertexOutgoingEdges)
    (key : vertex) (x : pyval) :
  h !! lv = Some (OVOE v) -> edges v !! key = None ->
  exists h1,
    voe_set_edge (PyRef lv) key x h = (inr (), h1) /\
    voe_delitem (PyRef lv) key h1 = (inr (), h).
Proof.
  intros Hv Hk.
  destruct (set_edge_get_edge h lv v Hv key x) as [Hset _].
  eexists. split; [exact Hset|].
  unfold voe_delitem, load_voe. unfold_M. rewrite lookup_insert_eq. cbn.
  rewrite lookup_insert_eq. cbn. rewrite insert_insert_eq, delete_insert_id by done.
  destruct v as [r m]. cbn. by rewrite insert_id.
Qed.

(** [set_edge] grows [len(vo)] by one for a new destination and keeps it
    for a destination already present. *)
Theorem set_edge_len (h : store) (lv : loc) (v : VertexOutgoingEdges)
    (key : vertex) (x : pyval) :
  h !! lv = Some (OVOE v) ->
  exists h1,
    voe_set_edge (PyRef lv) key x h = (inr (), h1) /\
    voe_len (PyRef lv) h1 =
      (inr (if decide (is_Some (edges v !! key)) then size (edges v)
            else S (size (edges v))), h1).
Proof.
  intros Hv.
  destruct (set_edge_get_edge h lv v Hv key x) as [Hset _].
  eexists. split; [exact Hset|].
  unfold voe_len, load_voe. unfold_M. rewrite lookup_insert_eq. cbn.
  destruct (decide (is_Some (edges v !! key))) as [[y Hy]|Hn].
  - rewrite map_size_insert, Hy. reflexivity.
  - rewrite map_size_insert_None; [reflexivity|]. by apply eq_None_not_Some.
Qed.

(** Assigning a bare weight to a destination holding an Edge, then reading
    it in mode ["length"] or ["time"], gives the assigned weight back. *)
Theorem setitem_then_getitem (h : store) (lv lg l : loc) (v : VertexOutgoingEdges)
    (rg : RoadGraph) (key : vertex) (ed : Edge) (val : Z) :
  h !! lv = Some (OVOE v) -> road_graph v = PyRef lg -> h !! lg = Some (ORG rg) ->
  edges v !! key = Some (PyRef l) -> h !! l = Some (OEdge ed) ->
  _edge_weight_fun rg = Some WLength \/ _edge_weight_fun rg = Some WTime ->
  exists h',
    voe_setitem (PyRef lv) key val h = (inr (), h') /\
    voe_getitem (PyRef lv) key h' = (inr val, h').
Proof.
  intros Hv Hr Hg Hk Hl Hf.
  assert (lv <> l) by congruence. assert (lg <> l) by congruence.
  destruct (setitem_existing_sets_weight h lv v Hv key val l ed Hk Hl) as [Hset _].
  set (ed' := mkEdge (length ed) (time ed) (Some val)) in Hset.
  set (h' := <[l := OEdge ed']> h) in Hset.
  assert (Hv' : h' !! lv = Some (OVOE v)) by (subst h'; by rewrite lookup_insert_ne).
  assert (Hg' : h' !! lg = Some (ORG rg)) by (subst h'; by rewrite lookup_insert_ne).
  assert (Hl' : h' !! l = Some (OEdge ed')) by (subst h'; by rewrite lookup_insert_eq).
  assert (Hw : weight ed' = Some val) by reflexivity.
  exists h'. split; [exact Hset|]. clearbody h' ed'.
  unfold voe_getitem, load_voe, load_rg, dict_getitem, apply_weight_fun, load_edge.
  destruct Hf as [Hf|Hf]; run; reflexivity.
Qed.

(** The RoadGraph mapping: [g[key] = x] keeps the weight function, after
    it [g[key]] is [x] and [key in g] holds; [del g[key]] then removes it
    ([key in g] is false), and gives back the original store when [key]
    was new.  On an absent key, [del g[key]] raises [KeyError] without
    changing anything, and [key in g] is false without raising. *)
Theorem rg_mapping_ops (h : store) (lg : loc) (rg : RoadGraph) (key : vertex) (x : pyval) :
  h !! lg = Some (ORG rg) ->
  (graph rg !! key = None ->
     rg_delitem (PyRef lg) key h = (inl KeyError, h) /\
     rg_contains (PyRef lg) key h = (inr false, h)) /\
  (let h1 := <[lg := ORG (mkRG (<[key := x]> (graph rg)) (_edge_weight_fun rg))]> h in
   exists h2,
     rg_setitem (PyRef lg) key x h = (inr (), h1) /\
     rg_getitem (PyRef lg) key h1 = (inr x, h1) /\
     rg_contains (PyRef lg) key h1 = (inr true, h1) /\
     rg_delitem (PyRef lg) key h1 = (inr (), h2) /\
     rg_contains (PyRef lg) key h2 = (inr false, h2) /\
     (graph rg !! key = None -> h2 = h)).
Proof.
  intros Hg. split.
  - intros Hk. split.
    + unfold rg_delitem, load_rg. run. reflexivity.
    + unfold rg_contains, rg_getitem, load_rg, dict_getitem. run. reflexivity.
  - intros h1.
    set (g2 := mkRG (delete key (<[key := x]> (graph rg))) (_edge_weight_fun rg)).
    exists (<[lg := ORG g2]> h1).
    assert (H1 : h1 !! lg = Some (ORG (mkRG (<[key := x]> (graph rg)) (_edge_weight_fun rg))))
      by (subst h1; by rewrite lookup_insert_eq).
    split; [|split; [|split; [|split; [|split]]]].
    + unfold rg_setitem, load_rg. run. reflexivity.
    + unfold rg_getitem, load_rg, dict_getitem. clearbody h1. run.
      rewrite lookup_insert_eq. reflexivity.
    + unfold rg_contains, rg_getitem, load_rg, dict_getitem. clearbody h1. run.
      rewrite lookup_insert_eq. reflexivity.
    + unfold rg_delitem, load_rg. clearbody h1. run. rewrite lookup_insert_eq.
      reflexivity.
    + unfold rg_contains, rg_getitem, load_rg, dict_getitem. unfold_M.
      rewrite lookup_insert_eq. cbn. subst g2. cbn. rewrite lookup_delete_eq. reflexivity.
    + intros Hk. subst h1 g2. rewrite insert_insert_eq, delete_insert_id by done.
      destruct rg as [m f]. by apply insert_id.
Qed.

(** ** The keys of the reversed graph *)

Section ReverseKeys.
Context (h0 : store) (ls lr : loc) (rs : RoadGraph).
Hypothesis Hself : h0 !! ls = Some (ORG rs).
Hypothesis Hlr0 : h0 !! lr = None.

Lemma reverse_ensure_keys (P : vertex -> vertex -> Prop) (m m1 : gmap vertex pyval)
    (h h1 : store) (d : vertex) (f : option weight_fun) :
  rev_inv h0 ls lr P m h ->
  reverse_ensure (PyRef lr) d h = (inr (), h1) ->
  h1 !! lr = Some (ORG (mkRG m1 f)) ->
  forall k, is_Some (m1 !! k) <-> is_Some (m !! k) \/ k = d.
Proof.
  intros (Hold & Hlr & Hm & _) Hens Hlr1 k.
  destruct (m !! d) as [x|] eqn:Hd.
  - assert (E : reverse_ensure (PyRef lr) d h = (inr (), h)).
    { unfold reverse_ensure, rg_contains, rg_getitem, load_rg, dict_getitem.
      run. reflexivity. }
    rewrite E in Hens. injection Hens as <-. rewrite Hlr in Hlr1.
    injection Hlr1 as <- _. split; [by left|]. intros [?| ->]; [done|]. by rewrite Hd.
  - set (l := fresh (dom h)).
    assert (E : reverse_ensure (PyRef lr) d h =
      (inr (), <[lr := ORG (mkRG (<[d := PyRef l]> m) (Some WLength))]>
                 (<[l := OVOE (mkVOE (PyRef lr) ∅)]> h))).
    { assert (Hl : h !! l = None) by (apply not_elem_of_dom; apply is_fresh).
      assert (Hlrl : lr <> l) by congruence.
      unfold reverse_ensure, rg_contains, rg_getitem, load_rg, dict_getitem,
        VertexOutgoingEdges_new, rg_setitem.
      run. fold l. rewrite lookup_insert_ne by congruence. run. reflexivity. }
    rewrite E in Hens. injection Hens as <-. rewrite lookup_insert_eq in Hlr1.
    injection Hlr1 as <- _. rewrite lookup_insert_is_Some'. 
    split; intros [?|?]; auto.
Qed.

Lemma reverse_inner_loop_keys (s : vertex) (lv : loc) (v : VertexOutgoingEdges)
    (ds : list vertex) :
  graph rs !! s = Some (PyRef lv) -> h0 !! lv = Some (OVOE v) ->
  (forall d, d ∈ ds -> is_Some (edges v !! d)) ->
  forall P m h, rev_inv h0 ls lr P m h -> rev_keys_inv h lr m ->
  exists m' h',
    for_each ds (reverse_inner (PyRef ls) (PyRef lr) s) h = (inr (), h') /\
    rev_inv h0 ls lr (fun s' d' => P s' d' \/ (s' = s /\ d' ∈ ds)) m' h' /\
    rev_keys_inv h' lr m'.
Proof.
  intros Hs Hv. induction ds as [|d ds IH]; intros Hds P m h Hinv Hkeys.
  - exists m, h. split; [reflexivity|split; [|done]].
    eapply rev_inv_iff; [|exact Hinv].
    intros s' d'. rewrite elem_of_nil. tauto.
  - destruct (Hds d ltac:(left)) as [e He].
    destruct (reverse_ensure_ok h0 ls lr Hlr0 P m h d Hinv)
      as (m1 & h1 & l & Hens & Hinv1 & Hm1).
    destruct (reverse_link_ok h0 ls lr rs Hself Hlr0 P m1 h1 s d lv v e (PyRef l)
                Hs Hv He Hinv1 Hm1) as (h2 & Hlink & Hinv2).
    assert (Hk1 := reverse_ensure_keys P m m1 h h1 d _ Hinv Hens (proj1 (proj2 Hinv1))).
    assert (Hkeys2 : rev_keys_inv h2 lr m1).
    { pose proof Hinv as (_ & _ & _ & _ & Harc).
      pose proof Hinv2 as (_ & _ & _ & _ & Harc2).
      assert (Harc0 : arc h0 (PyRef ls) s d e) by (exists ls, rs, lv, v; auto).
      intros k. rewrite Hk1. split.
      - intros [Hk| ->].
        + apply Hkeys in Hk as (s' & e' & Ha). apply Harc in Ha as [Hp Ha].
          exists s', e'. apply Harc2. auto.
        + exists s, e. apply Harc2. auto.
      - intros (s' & e' & Ha). apply Harc2 in Ha as [[Hp|[_ ->]] Ha]; [left|by right].
        apply Hkeys. exists s', e'. by apply Harc. }
    destruct (IH ltac:(intros d' Hd'; apply Hds; by right) _ _ _ Hinv2 Hkeys2)
      as (m' & h' & Hloop & Hinv' & Hkeys').
    exists m', h'. split; [|split; [|done]].
    + cbn [for_each]. unfold reverse_inner.
      erewrite bind_inr; [exact Hloop|].
      erewrite bind_inr; [exact Hlink|exact Hens].
    + eapply rev_inv_iff; [|exact Hinv'].
      intros s' d'. rewrite elem_of_cons. tauto.
Qed.

Section OuterKeys.
Hypothesis Hwf : forall s x, graph rs !! s = Some x ->
  exists lv v, x = PyRef lv /\ h0 !! lv = Some (OVOE v).

Lemma reverse_outer_loop_keys (ss : list vertex) :
  (forall s, s ∈ ss -> is_Some (graph rs !! s)) ->
  forall P m h, rev_inv h0 ls lr P m h -> rev_keys_inv h lr m ->
  exists m' h',
    for_each ss (reverse_outer (PyRef ls) (PyRef lr)) h = (inr (), h') /\
    rev_inv h0 ls lr (fun s' d' => P s' d' \/ visited h0 rs ss s' d') m' h' /\
    rev_keys_inv h' lr m'.
Proof.
  induction ss as [|s ss IH]; intros Hss P m h Hinv Hkeys.
  - exists m, h. split; [reflexivity|split; [|done]].
    eapply rev_inv_iff; [|exact Hinv].
    intros s' d'. unfold visited. rewrite elem_of_nil. tauto.
  - destruct (Hss s ltac:(left)) as [x Hx].
    destruct (Hwf s x Hx) as (lv & v & -> & Hv).
    pose proof Hinv as (Hold & _).
    destruct (reverse_inner_loop_keys s lv v (dict_keys (edges v)) Hx Hv
                (fun d Hd => proj1 (elem_of_dict_keys _ _) Hd) P m h Hinv Hkeys)
      as (m1 & h1 & Hin & Hinv1 & Hkeys1).
    destruct (IH ltac:(intros s' Hs'; apply Hss; by right) _ _ _ Hinv1 Hkeys1)
      as (m' & h' & Hloop & Hinv' & Hkeys').
    exists m', h'. split; [|split; [|done]].
    + cbn [for_each]. erewrite bind_inr; [exact Hloop|].
      unfold reverse_outer, load_rg, iter_keys, dict_getitem.
      assert (Hls : h !! ls = Some (ORG rs)) by auto.
      assert (Hlv : h !! lv = Some (OVOE v)) by auto.
      run. exact Hin.
    + eapply rev_inv_iff; [|exact Hinv'].
      intros s' d'. unfold visited. rewrite elem_of_cons. split.
      * intros [[Hp|[-> Hd]]|(Hs' & lv' & v' & H1 & H2 & H3)]; auto.
        -- right. split; [by left|]. exists lv, v. auto.
        -- right. split; [by right|]. exists lv', v'. auto.
      * intros [Hp|([->|Hs'] & lv' & v' & H1 & H2 & H3)]; auto.
        -- left. right. split; [done|].
           rewrite Hx in H1. injection H1 as <-. rewrite Hv in H2. injection H2 as <-.
           done.
        -- right. split; [done|]. exists lv', v'. auto.
Qed.

End OuterKeys.
End ReverseKeys.

Lemma reverse_run_keys (h0 : store) (ls : loc) :
  road_graph_wf h0 (PyRef ls) ->
  exists lr m h',
    reverse (PyRef ls) h0 = (inr (PyRef lr), h') /\
    (forall l o, h0 !! l = Some o -> h' !! l = Some o) /\
    h' !! lr = Some (ORG (mkRG m (Some WLength))) /\
    (forall d x, m !! d = Some x ->
       exists l v, x = PyRef l /\ h' !! l = Some (OVOE v) /\ road_graph v = PyRef lr) /\
    (forall d, is_Some (m !! d) <-> exists s e, arc h0 (PyRef ls) s d e) /\
    (forall d s e, arc h' (PyRef lr) d s e <-> arc h0 (PyRef ls) s d e).
Proof.
  intros (lg & rs & [=<-] & Hself & Hwf').
  assert (Hwf : forall s x, graph rs !! s = Some x ->
            exists lv v, x = PyRef lv /\ h0 !! lv = Some (OVOE v))
    by (intros s x Hx; apply is_voe_spec; exact (Hwf' s x Hx)).
  set (lr := fresh (dom h0)).
  assert (Hlr0 : h0 !! lr = None) by (apply not_elem_of_dom; apply is_fresh).
  set (h1 := <[lr := ORG (mkRG ∅ (Some WLength))]> h0).
  assert (Hnoarc : forall d s e, ~ arc h1 (PyRef lr) d s e).
  { intros d s e (lg & rg & lv & v & [=<-] & Hg & Hs & _).
    subst h1. rewrite lookup_insert_eq in Hg. injection Hg as <-.
    cbn in Hs. by rewrite lookup_empty in Hs. }
  assert (Hinv1 : rev_inv h0 ls lr (fun _ _ => False) ∅ h1).
  { split; [|split; [|split; [|split]]].
    - intros l o Ho. subst h1. rewrite lookup_insert_ne; [done|congruence].
    - subst h1. by rewrite lookup_insert_eq.
    - intros d x Hx. by rewrite lookup_empty in Hx.
    - intros d1 d2 l Hx. by rewrite lookup_empty in Hx.
    - intros d s e. split; [|tauto]. intros Ha. by apply Hnoarc in Ha. }
  assert (Hkeys1 : rev_keys_inv h1 lr ∅).
  { intros d. rewrite lookup_empty. split; [by intros []|].
    intros (s & e & Ha). by apply Hnoarc in Ha. }
  destruct (reverse_outer_loop_keys h0 ls lr rs Hself Hlr0 Hwf (dict_keys (graph rs))
              (fun s Hs => proj1 (elem_of_dict_keys _ _) Hs) _ _ _ Hinv1 Hkeys1)
    as (m & h' & Hloop & (Hold & Hlr & Hm & Hinj & Harc) & Hkeys).
  assert (Harc' : forall d s e, arc h' (PyRef lr) d s e <-> arc h0 (PyRef ls) s d e).
  { intros d s e. rewrite Harc. split; [tauto|].
    intros Ha. split; [|done]. right.
    destruct Ha as (lg & rg & lv & v & [=<-] & Hg & Hs & Hv & He).
    rewrite Hself in Hg. injection Hg as <-.
    split; [apply elem_of_dict_keys; eauto|].
    exists lv, v. repeat split; auto. apply elem_of_dict_keys. eauto. }
  exists lr, m, h'. split; [|split; [done|split; [done|split; [|split; [|done]]]]].
  - unfold reverse. rewrite (bind_inr _ _ h0 h1 (PyRef lr)) by apply RoadGraph_new_run.
    assert (Hls : h1 !! ls = Some (ORG rs)).
    { subst h1. rewrite lookup_insert_ne; [done|congruence]. }
    unfold load_rg. run. reflexivity.
  - intros d x Hx. destruct (Hm d x Hx) as (l & v & -> & _ & Hv & Hr). eauto.
  - intros d. unfold rev_keys_inv in Hkeys. rewrite Hkeys. split; intros (s & e & Ha); exists s, e; by apply Harc'.
Qed.

(** A vertex is a source of [G.reverse()] ([d in G.reverse()]) exactly
    when some arc of [G] ends in it: vertices without incoming arcs in [G]
    are absent, whatever outgoing arcs they have.  The test never
    raises. *)
Theorem reverse_sources_are_destinations (h0 : store) (ls : loc) :
  road_graph_wf h0 (PyRef ls) ->
  exists g' h',
    reverse (PyRef ls) h0 = (inr g', h') /\
    forall d, exists b,
      rg_contains g' d h' = (inr b, h') /\
      (b = true <-> exists s e, arc h0 (PyRef ls) s d e).
Proof.
  intros Hwf.
  destruct (reverse_run_keys h0 ls Hwf) as (lr & m & h' & Hrun & _ & Hlr & _ & Hkeys & _).
  exists (PyRef lr), h'. split; [done|]. intros d.
  pose proof (Hkeys d) as Hk.
  unfold rg_contains, rg_getitem, load_rg, dict_getitem.
  destruct (m !! d) as [x|] eqn:Hd.
  - exists true. run. split; [reflexivity|]. rewrite <- Hk. split; [done|]. intros _.
    reflexivity.
  - exists false. run. split; [reflexivity|]. rewrite <- Hk. split; [discriminate|].
    by intros [].
Qed.

(** Weighted reads on [G.reverse()] go through the reversed graph's own
    weight function: the reversed graph [g'] is a RoadGraph in mode
    ["length"], each VertexOutgoingEdges [G.reverse()[d]] has [g'] as its
    [road_graph], and for every arc [s -> d] of [G] stored as an Edge
    object, [G.reverse()[d][s]] is that Edge's [weight] if it has one and
    its [length] otherwise, whatever mode [G] is in. *)
Theorem reverse_weighted_read (h0 : store) (ls : loc) :
  road_graph_wf h0 (PyRef ls) ->
  exists g' h' lr rg',
    reverse (PyRef ls) h0 = (inr g', h') /\
    g' = PyRef lr /\ h' !! lr = Some (ORG rg') /\ _edge_weight_fun rg' = Some WLength /\
    forall s d le ed, arc h0 (PyRef ls) s d (PyRef le) -> h0 !! le = Some (OEdge ed) ->
    exists o lo vo,
      rg_getitem g' d h' = (inr o, h') /\
      o = PyRef lo /\ h' !! lo = Some (OVOE vo) /\ road_graph vo = g' /\
      voe_getitem o s h' =
        (inr (match weight ed with Some w => w | None => length ed end), h').
Proof.
  intros Hwf.
  destruct (reverse_run_keys h0 ls Hwf)
    as (lr & m & h' & Hrun & Hold & Hlr & Hm & _ & Harc).
  exists (PyRef lr), h', lr, (mkRG m (Some WLength)).
  split; [done|split; [done|split; [done|split; [done|]]]].
  intros s d le ed Ha Hle. apply Harc in Ha.
  destruct Ha as (lg & rg & lv & v & [=<-] & Hg & Hs & Hv & He).
  rewrite Hlr in Hg. injection Hg as <-. cbn in Hs.
  destruct (Hm d _ Hs) as (l & v' & [=<-] & Hv' & Hr).
  rewrite Hv in Hv'. injection Hv' as <-.
  assert (Hle' : h' !! le = Some (OEdge ed)) by auto.
  exists (PyRef lv), lv, v. split; [|split; [done|split; [done|split; [done|]]]].
  - unfold rg_getitem, load_rg, dict_getitem. run. reflexivity.
  - unfold voe_getitem, load_voe, load_rg, dict_getitem, apply_weight_fun, load_edge.
    run. destruct (weight ed); reflexivity.
Qed.

(** ** Witnesses of the further properties *)

Lemma new_edge_weighted_read_witness :
  exists le h1 h2,
    Edge_new 9 ex_store = (inr (PyRef le), h1) /\
    voe_set_edge (PyRef 2%positive) 8%Z (PyRef le) h1 = (inr (), h2) /\
    (_edge_weight_fun ex_graph = Some WLength ->
       voe_getitem (PyRef 2%positive) 8%Z h2 = (inr 9%Z, h2)) /\
    (_edge_weight_fun ex_graph = Some WTime ->
       voe_getitem (PyRef 2%positive) 8%Z h2 = (inl AttributeError, h2)).
Proof.
  apply (new_edge_weighted_read ex_store 2%positive 1%positive ex_voe_A ex_graph);
    reflexivity.
Defined.

Lemma set_then_get_edge_weight_function_witness :
  set_edge_weight_function (PyRef 1%positive) (ArgStr "length") ex_store =
    (inr (), <[1%positive := ORG (mkRG (graph ex_graph) (Some WLength))]> ex_store) /\
  get_edge_weight_function (PyRef 1%positive)
    (<[1%positive := ORG (mkRG (graph ex_graph) (Some WLength))]> ex_store) =
    (inr WLength, <[1%positive := ORG (mkRG (graph ex_graph) (Some WLength))]> ex_store).
Proof.
  apply (set_then_get_edge_weight_function ex_store 1%positive ex_graph
           (ArgStr "length") WLength); [reflexivity|].
  left. split; [right|]; reflexivity.
Defined.

Lemma time_mode_switch_read_witness :
  set_edge_weight_function (PyRef 1%positive) (ArgStr "time") ex_store_len =
    (inr (), ex_store) /\
  (forall l', l' <> 1%positive -> ex_store !! l' = ex_store_len !! l') /\
  voe_getitem (PyRef 3%positive) 3%Z ex_store = (inr 7%Z, ex_store).
Proof.
  exact (time_mode_switch_read ex_store_len 3%positive 1%positive 5%positive ex_voe_B
           (mkRG (graph ex_graph) (Some WLength)) 3%Z (mkEdge 3 (Some 7%Z) None) 7%Z
           eq_refl eq_refl eq_refl eq_refl eq_refl eq_refl eq_refl).
Defined.

Lemma voe_delitem_spec_witness :
  ex_store !! 2%positive = Some (OVOE ex_voe_A) /\
  voe_delitem (PyRef 2%positive) 7%Z ex_store = (inl KeyError, ex_store).
Proof.
  split; [reflexivity|].
  exact (proj1 (voe_delitem_spec ex_store 2%positive ex_voe_A 7%Z eq_refl) eq_refl).
Defined.

Lemma set_edge_delitem_roundtrip_witness :
  exists h1,
    voe_set_edge (PyRef 2%positive) 7%Z (PyRef 5%positive) ex_store = (inr (), h1) /\
    voe_delitem (PyRef 2%positive) 7%Z h1 = (inr (), ex_store).
Proof.
  apply (set_edge_delitem_roundtrip ex_store 2%positive ex_voe_A); reflexivity.
Defined.

Lemma set_edge_len_witness :
  exists h1,
    voe_set_edge (PyRef 2%positive) 7%Z (PyRef 5%positive) ex_store = (inr (), h1) /\
    voe_len (PyRef 2%positive) h1 =
      (inr (if decide (is_Some (edges ex_voe_A !! 7%Z)) then size (edges ex_voe_A)
            else S (size (edges ex_voe_A))), h1).
Proof.
  apply (set_edge_len ex_store 2%positive ex_voe_A); reflexivity.
Defined.

Lemma setitem_then_getitem_witness :
  exists h',
    voe_setitem (PyRef 3%positive) 3%Z 4%Z ex_store = (inr (), h') /\
    voe_getitem (PyRef 3%positive) 3%Z h' = (inr 4%Z, h').
Proof.
  apply (setitem_then_getitem ex_store 3%positive 1%positive 5%positive ex_voe_B
           ex_graph 3%Z (mkEdge 3 (Some 7%Z) None) 4%Z); try reflexivity.
  right. reflexivity.
Defined.

Lemma rg_mapping_ops_witness :
  ex_store !! 1%positive = Some (ORG ex_graph) /\
  rg_delitem (PyRef 1%positive) 9%Z ex_store = (inl KeyError, ex_store).
Proof.
  split; [reflexivity|].
  exact (proj1 (proj1 (rg_mapping_ops ex_store 1%positive ex_graph 9%Z PyNone eq_refl)
                  eq_refl)).
Defined.

Lemma reverse_sources_are_destinations_witness :
  road_graph_wf ex_store (PyRef 1%positive) /\
  exists g' h',
    reverse (PyRef 1%positive) ex_store = (inr g', h') /\
    forall d, exists b,
      rg_contains g' d h' = (inr b, h') /\
      (b = true <-> exists s e, arc ex_store (PyRef 1%positive) s d e).
Proof.
  assert (W : road_graph_wf ex_store (PyRef 1%positive)) by ex_wf.
  split; [exact W|exact (reverse_sources_are_destinations ex_store 1%positive W)].
Defined.

Lemma reverse_weighted_read_witness :
  road_graph_wf ex_store (PyRef 1%positive) /\
  exists g' h' lr rg',
    reverse (PyRef 1%positive) ex_store = (inr g', h') /\
    g' = PyRef lr /\ h' !! lr = Some (ORG rg') /\ _edge_weight_fun rg' = Some WLength /\
    forall s d le ed, arc ex_store (PyRef 1%positive) s d (PyRef le) ->
      ex_store !! le = Some (OEdge ed) ->
    exists o lo vo,
      rg_getitem g' d h' = (inr o, h') /\
      o = PyRef lo /\ h' !! lo = Some (OVOE vo) /\ road_graph vo = g' /\
      voe_getitem o s h' =
        (inr (match weight ed with Some w => w | None => length ed end), h').
Proof.
  assert (W : road_graph_wf ex_store (PyRef 1%positive)) by ex_wf.
  split; [exact W|exact (reverse_weighted_read ex_store 1%positive W)].
Defined.
